(** * altair.utils.headless: the spec-to-image export pipeline

    A shallow embedding of [save_spec] (src/altair/utils/headless.py).
    The function is a fixed sequence of calls into selenium, tempfile,
    os and base64, wrapped in two nested [try ... finally] blocks.  It is
    embedded as a computation in a state-and-exception monad over

    - a [world]: the temporary directory, the number of live browser
      processes, the number of open file descriptors and the destinations
      that can be written to;
    - the function's [locals] that the [finally] clauses read ([driver]
      and [name]), which Python leaves unbound when the assignment that
      would bind them raised;
    - a [trace] of the external calls made, in program order.

    What the outside world answers to each call is given by an [env]:
    every call into selenium, tempfile, os and the file system may raise,
    the two releases [os.remove] and [driver.close()] included.  Taken
    from the libraries' contracts: a [webdriver.Chrome] constructor that
    raises leaves no process behind, a [driver.close()] that returns has
    ended the process, and an [os.remove] that returns has deleted the
    file; a release that raises has released nothing. *)

From Stdlib Require Import Ascii.
From stdpp Require Import gmap strings list fin_maps.

(** ** Python values *)

(** An exception instance: its class and its message. *)
Record exn := Exn { exn_class : string; exn_msg : string }.

#[global] Instance exn_eq_dec : EqDecision exn.
Proof. solve_decision. Defined.

(** The chart specification: a JSON-compatible nested mapping.  [save_spec]
    never looks inside; it only hands it to [json.dumps]. *)
#[local] Unset Elimination Schemes.
Inductive json :=
| JNull
| JBool (b : bool)
| JNum (n : Z)
| JStr (s : string)
| JList (l : list json)
| JDict (kvs : list (string * json)).
#[local] Set Elimination Schemes.

(** What [driver.execute_script] hands back for [EXTRACT_CODE]: the current
    value of [window.image_render], [None] while it is still undefined. *)
Inductive pyval :=
| PyNone
| PyStr (s : string).

Abbreviation bytes := (list Byte.byte).

(** The [fp] argument: a filename or an open file-like object. *)
Inductive dest :=
| Path (p : string)
| FileObj (h : nat).

#[global] Instance dest_eq_dec : EqDecision dest.
Proof. solve_decision. Defined.

(** ** Strings *)

(** [s.split(sep)] for a one-character separator: every occurrence of
    [sep] cuts, so the result is never empty and [''.split(sep) == ['']]. *)
Fixpoint str_split (sep : ascii) (s : string) : list string :=
  match s with
  | EmptyString => [EmptyString]
  | String c s' =>
      if Ascii.eqb c sep then EmptyString :: str_split sep s'
      else match str_split sep s' with
           | [] => [String c EmptyString]
           | seg :: rest => String c seg :: rest
           end
  end.

(** [c in s] for a character [c]. *)
Fixpoint str_contains (c : ascii) (s : string) : bool :=
  match s with
  | EmptyString => false
  | String c' s' => Ascii.eqb c' c || str_contains c s'
  end.

(** [sep.join(l)], the inverse of [str_split]. *)
Fixpoint str_join (sep : ascii) (l : list string) : string :=
  match l with
  | [] => EmptyString
  | [x] => x
  | x :: rest => x +:+ String sep (str_join sep rest)
  end.

(** [s.endswith(suffix)]. *)
Definition ends_in (s suffix : string) : Prop := ∃ q, s = q +:+ suffix.

(** [s.endswith(suffix)], run from the front: some tail of [s] is
    [suffix]. *)
Fixpoint str_endswith (s suffix : string) : bool :=
  String.eqb s suffix ||
  match s with
  | EmptyString => false
  | String _ s' => str_endswith s' suffix
  end.

(** [x in l] for a list of strings, as in [format not in ['png', 'svg']];
    [None] is in no such list. *)
Definition in_strs (x : option string) (l : list string) : bool :=
  match x with
  | None => false
  | Some s => bool_decide (s ∈ l)
  end.

(** ** The scripts sent to the browser *)

(** The three code strings.  [EmbedCode spec opt] stands for
    [EMBED_CODE.format(spec=json.dumps(spec), opt=json.dumps(opt))],
    [ConvertCode fmt] for [CONVERT_CODE[fmt]] and [ExtractCode] for
    [EXTRACT_CODE]. *)
Inductive script :=
| EmbedCode (spec : json) (opt : gmap string string)
| ConvertCode (fmt : string)
| ExtractCode.

(** ** Traces *)

(** One event per external call, logged when the call is made.  The two
    acquisitions record whether they delivered the resource. *)
Inductive event :=
| ENewOptions
| EAddArgument (arg : string)
| EChrome (started : bool)
| EMkstemp (suffix : string) (created : option string)
| EOpenWrite (name : string) (content : string)
| EGet (url : string)
| EExecuteScript (s : script)
| ERemove (name : string)
| EClose
| EWriteFileOrFilename (fp : dest) (content : bytes) (mode : string).

(** The events that change which resources are held. *)
Definition is_resource_event (e : event) : bool :=
  match e with
  | EChrome true | EMkstemp _ (Some _) | ERemove _ | EClose => true
  | _ => false
  end.

Definition is_extract_event (e : event) : bool :=
  match e with
  | EExecuteScript ExtractCode => true
  | _ => false
  end.

Definition is_write_event (e : event) : bool :=
  match e with
  | EWriteFileOrFilename _ _ _ => true
  | _ => false
  end.

(** ** The world and the environment *)

Record world := World {
  (** temporary files: name to text content *)
  tmpfiles : gmap string string;
  (** live headless browser processes *)
  browsers : nat;
  (** file descriptors this process holds open *)
  descriptors : nat;
  (** files written through a path *)
  files : gmap string bytes;
  (** what each open file-like object has received so far *)
  sinks : gmap nat bytes;
}.

(** How the outside answers.  [None] means the call returns normally,
    [Some e] that it raises [e]. *)
Record env := Env {
  (** which modules [attempt_import] can import *)
  importable : string -> bool;
  options_new : option exn;
  add_argument : option exn;
  chrome_start : option exn;
  (** the name [tempfile.mkstemp] picks *)
  mkstemp_pick : exn + string;
  open_w : option exn;
  write_html : option exn;
  driver_get : option exn;
  run_embed : option exn;
  run_convert : option exn;
  run_extract : option exn;
  (** [image_render_at n] is [window.image_render] at the [n]-th time the
      host reads it (counting from 0): the embed and the conversion are
      asynchronous in the browser, so it may be [PyNone] for a while *)
  image_render_at : nat -> pyval;
  (** [os.remove(name)], which raises for instance where a file cannot be
      deleted while a descriptor on it is open *)
  remove_tmp : option exn;
  (** [driver.close()], which raises for instance when the browser is
      gone *)
  close_browser : option exn;
  write_dest : option exn;
}.

(** ** The monad *)

Inductive result (A : Type) :=
| Ok (a : A)
| Raise (e : exn).
Arguments Ok {A} a.
Arguments Raise {A} e.

(** The local variables of [save_spec] that a [finally] clause reads. *)
Record locals := Locals {
  l_driver : option unit;
  l_name : option string;
}.

Record state := State {
  st_world : world;
  st_locals : locals;
  (** newest event first *)
  st_trace : list event;
}.

Definition M (A : Type) : Type := state -> result A * state.

Definition ret {A} (a : A) : M A := fun st => (Ok a, st).

Definition bind {A B} (c : M A) (k : A -> M B) : M B :=
  fun st =>
    match c st with
    | (Ok a, st') => k a st'
    | (Raise e, st') => (Raise e, st')
    end.

Definition raise {A} (e : exn) : M A := fun st => (Raise e, st).

(** [try: body finally: fin].  [fin] always runs; an exception raised by
    [fin] replaces whatever [body] produced. *)
Definition try_finally {A} (body : M A) (fin : M unit) : M A :=
  fun st =>
    match body st with
    | (r, st1) =>
        match fin st1 with
        | (Ok _, st2) => (r, st2)
        | (Raise e, st2) => (Raise e, st2)
        end
    end.

Declare Scope py_scope.
Delimit Scope py_scope with py.
Notation "x <- c ;; k" := (bind c (fun x => k))
  (at level 100, c at next level, right associativity) : py_scope.
Notation "c ;; k" := (bind c (fun _ => k))
  (at level 100, right associativity) : py_scope.
Local Open Scope py_scope.

Definition emit (e : event) : M unit :=
  fun st => (Ok tt, State (st_world st) (st_locals st) (e :: st_trace st)).

Definition get_world : M world := fun st => (Ok (st_world st), st).

Definition put_world (w : world) : M unit :=
  fun st => (Ok tt, State w (st_locals st) (st_trace st)).

Definition set_driver (d : unit) : M unit :=
  fun st => (Ok tt, State (st_world st)
                          (Locals (Some d) (l_name (st_locals st)))
                          (st_trace st)).

Definition set_name (n : string) : M unit :=
  fun st => (Ok tt, State (st_world st)
                          (Locals (l_driver (st_locals st)) (Some n))
                          (st_trace st)).

(** Reading a local that was never bound. *)
Definition UnboundLocalError (var : string) : exn :=
  Exn "UnboundLocalError"
      ("local variable '" +:+ var +:+ "' referenced before assignment").

Definition read_driver : M unit :=
  fun st => match l_driver (st_locals st) with
            | Some d => (Ok d, st)
            | None => (Raise (UnboundLocalError "driver"), st)
            end.

Definition read_name : M string :=
  fun st => match l_name (st_locals st) with
            | Some n => (Ok n, st)
            | None => (Raise (UnboundLocalError "name"), st)
            end.

(** An external call whose only outcome is to return or to raise. *)
Definition answer (o : option exn) : M unit :=
  match o with
  | None => ret tt
  | Some e => raise e
  end.

(** ** The world's side of each call *)

(** [webdriver.Chrome(chrome_options=...)]: a browser process is running
    once the constructor has returned; a constructor that raises leaves
    none behind. *)
Definition webdriver_Chrome (E : env) : M unit :=
  match chrome_start E with
  | Some e => emit (EChrome false) ;; raise e
  | None =>
      emit (EChrome true) ;;
      w <- get_world ;;
      put_world (World (tmpfiles w) (S (browsers w)) (descriptors w)
                       (files w) (sinks w))
  end.

(** [driver.close()]: the process has ended when the call returns; a
    call that raises has ended nothing. *)
Definition driver_close (E : env) : M unit :=
  emit EClose ;;
  answer (close_browser E) ;;
  w <- get_world ;;
  put_world (World (tmpfiles w) (pred (browsers w)) (descriptors w)
                   (files w) (sinks w)).

(** [tempfile.mkstemp(suffix=..., text=True)]: creates an empty file under
    a name that did not exist (the file is opened with O_EXCL) and returns
    the pair of an open descriptor on it and that name.  The descriptor
    stays open until someone closes it; descriptors are numbered as they
    are opened. *)
Definition tempfile_mkstemp (E : env) (suffix : string) : M (nat * string) :=
  match mkstemp_pick E with
  | inl e => emit (EMkstemp suffix None) ;; raise e
  | inr n =>
      w <- get_world ;;
      match tmpfiles w !! n with
      | Some _ =>
          emit (EMkstemp suffix None) ;;
          raise (Exn "FileExistsError" "No usable temporary file name found")
      | None =>
          emit (EMkstemp suffix (Some n)) ;;
          put_world (World (<[n := EmptyString]> (tmpfiles w)) (browsers w)
                           (S (descriptors w)) (files w) (sinks w)) ;;
          ret (descriptors w, n)
      end
  end.

(** [with open(name, 'w') as f: f.write(content)] on a temporary file.
    The [with] block closes the descriptor it opened, on every exit. *)
Definition open_write (E : env) (name content : string) : M unit :=
  emit (EOpenWrite name content) ;;
  answer (open_w E) ;;
  answer (write_html E) ;;
  w <- get_world ;;
  put_world (World (<[name := content]> (tmpfiles w)) (browsers w)
                   (descriptors w) (files w) (sinks w)).

(** [os.remove(name)]: the file is gone when the call returns; a call
    that raises has left it. *)
Definition os_remove (E : env) (name : string) : M unit :=
  emit (ERemove name) ;;
  answer (remove_tmp E) ;;
  w <- get_world ;;
  match tmpfiles w !! name with
  | None => raise (Exn "FileNotFoundError" name)
  | Some _ =>
      put_world (World (delete name (tmpfiles w)) (browsers w)
                       (descriptors w) (files w) (sinks w))
  end.

(** [driver.execute_script(code)].  Only [EXTRACT_CODE] returns something:
    the value of [window.image_render] at this read.  The reads are
    numbered by how many extraction scripts ran before. *)
Definition execute_script (E : env) (code : script) : M pyval :=
  st <- (fun st => (Ok st, st)) ;;
  emit (EExecuteScript code) ;;
  match code with
  | EmbedCode _ _ => answer (run_embed E) ;; ret PyNone
  | ConvertCode _ => answer (run_convert E) ;; ret PyNone
  | ExtractCode =>
      answer (run_extract E) ;;
      ret (image_render_at E
             (length (filter (fun e => is_extract_event e = true)
                             (st_trace st))))
  end.

(** Modelled from the spec: [attempt_import] of altair/utils/importing.py,
    which is not among the sources: "attempt optional import, else raise
    with a descriptive message". *)
Definition attempt_import (E : env) (module message : string) : M unit :=
  if importable E module then ret tt
  else raise (Exn "ImportError" message).

(** Modelled from the spec: [write_file_or_filename] of
    altair/utils/core.py, which is not among the sources: "write bytes to
    file-or-stream", "opening the path in binary-write mode if a path was
    given".  A path is opened in the given mode and receives the content;
    a file-like object has the content appended to what it already
    received. *)
Definition write_file_or_filename (E : env) (fp : dest) (content : bytes)
    (mode : string) : M unit :=
  emit (EWriteFileOrFilename fp content mode) ;;
  answer (write_dest E) ;;
  w <- get_world ;;
  match fp with
  | Path p =>
      put_world (World (tmpfiles w) (browsers w) (descriptors w)
                       (<[p := content]> (files w)) (sinks w))
  | FileObj h =>
      put_world (World (tmpfiles w) (browsers w) (descriptors w) (files w)
                       (<[h := default [] (sinks w !! h) ++ content]>
                          (sinks w)))
  end.

(** ** save_spec *)

Definition NotImplementedError (msg : string) : exn :=
  Exn "NotImplementedError" msg.
Definition ValueError (msg : string) : exn := Exn "ValueError" msg.
Definition AttributeError (attr : string) : exn :=
  Exn "AttributeError"
      ("'NoneType' object has no attribute '" +:+ attr +:+ "'").
Definition IndexError : exn := Exn "IndexError" "list index out of range".

(** A library function that returns or raises. *)
Definition lift {A} (r : exn + A) : M A :=
  match r with
  | inl e => raise e
  | inr a => ret a
  end.

Section SaveSpec.

(** The text of the module constant [HTML_TEMPLATE]. *)
Variable HTML_TEMPLATE : string.
(** [s.encode()]: the UTF-8 codec of the interpreter. *)
Variable str_encode : string -> exn + bytes.
(** [base64.decodebytes]. *)
Variable base64_decodebytes : bytes -> exn + bytes.

(** Lines 81-82: the format the call works with. *)
Definition resolve_format (fp : dest) (format : option string)
    : option string :=
  match format, fp with
  | None, Path p => Some (List.last (str_split "." p) EmptyString)
  | _, _ => format
  end.

(** Lines 92-96: the options handed to vegaEmbed. *)
Definition build_opt (format : string) (mode : option string)
    : M (gmap string string) :=
  let opt : gmap string string :=
    {[ "renderer" := if String.eqb format "png" then "canvas" else "svg" ]}
  in
  match mode with
  | Some m =>
      if negb (in_strs (Some m) ["vega"; "vega-lite"])
      then raise (ValueError "mode must be 'vega' or 'vega-lite'")
      else ret (<["mode" := m]> opt)
  | None => ret opt
  end.

(** Lines 116-121: decode what the browser returned and write it. *)
Definition decode_and_write (E : env) (format : string) (fp : dest)
    (render : pyval) : M unit :=
  if String.eqb format "png" then
    match render with
    | PyNone => raise (AttributeError "split")
    | PyStr s =>
        match str_split "," s !! 1%nat with
        | None => raise IndexError
        | Some payload =>
            b <- lift (str_encode payload) ;;
            img_bytes <- lift (base64_decodebytes b) ;;
            write_file_or_filename E fp img_bytes "wb"
        end
    end
  else
    match render with
    | PyNone => raise (AttributeError "encode")
    | PyStr s =>
        img_bytes <- lift (str_encode s) ;;
        write_file_or_filename E fp img_bytes "wb"
    end.

(** The right-hand sides of lines 117 and 120 as a function of the string
    read from the browser: the bytes that are written, or the exception
    the decoding raises. *)
Definition img_bytes (format s : string) : exn + bytes :=
  if String.eqb format "png" then
    match str_split "," s !! 1%nat with
    | None => inl IndexError
    | Some payload =>
        match str_encode payload with
        | inl e => inl e
        | inr b => base64_decodebytes b
        end
    end
  else str_encode s.

(** Lines 98-114: the two nested [try ... finally] blocks.  The value
    is [render]. *)
Definition browser_session (E : env) (spec : json)
    (opt : gmap string string) (format : string) : M pyval :=
  try_finally
    (emit ENewOptions ;; answer (options_new E) ;;
     emit (EAddArgument "--headless") ;; answer (add_argument E) ;;
     d <- webdriver_Chrome E ;;
     set_driver d ;;
     try_finally
       (fd_name <- tempfile_mkstemp E ".html" ;;
        let name := fd_name.2 in
        set_name name ;;
        open_write E name HTML_TEMPLATE ;;
        emit (EGet ("file://" +:+ name)) ;; answer (driver_get E) ;;
        execute_script E (EmbedCode spec opt) ;;
        execute_script E (ConvertCode format) ;;
        execute_script E ExtractCode)
       (name <- read_name ;; os_remove E name))
    (read_driver ;; driver_close E).

Definition save_spec (E : env) (spec : json) (fp : dest)
    (mode format : option string) : M unit :=
  (* 81-85 *)
  match resolve_format fp format with
  | None =>
      raise (NotImplementedError "save_spec only supports 'svg' and 'png'")
  | Some format =>
      if negb (in_strs (Some format) ["png"; "svg"])
      then
        raise (NotImplementedError "save_spec only supports 'svg' and 'png'")
      else
        (* 87-90 *)
        attempt_import E "selenium.webdriver"
                       "save_spec requires the selenium package" ;;
        attempt_import E "selenium.webdriver.chrome.options"
                       "save_spec requires the selenium package" ;;
        (* 92-96 *)
        opt <- build_opt format mode ;;
        (* 98-114 *)
        render <- browser_session E spec opt format ;;
        (* 116-121 *)
        decode_and_write E format fp render
  end.

(** A call of [save_spec] in world [w]: the outcome, the world it leaves
    and the external calls it made, oldest first.  The locals start
    unbound. *)
Definition call_save_spec (E : env) (spec : json) (fp : dest)
    (mode format : option string) (w : world)
    : result unit * world * list event :=
  match save_spec E spec fp mode format (State w (Locals None None) []) with
  | (r, st) => (r, st_world st, rev (st_trace st))
  end.

End SaveSpec.

(** ** A concrete library, to run the model on examples *)

(** Text held as its UTF-8 bytes encodes to those bytes. *)
Definition utf8_encode (s : string) : exn + bytes :=
  inr (String.list_byte_of_string s).

(** The value of a base64 digit; 64 for the padding sign. *)
Definition b64_digit (b : Byte.byte) : option N :=
  let n := Byte.to_N b in
  if (65 <=? n)%N && (n <=? 90)%N then Some (n - 65)%N
  else if (97 <=? n)%N && (n <=? 122)%N then Some (n - 71)%N
  else if (48 <=? n)%N && (n <=? 57)%N then Some (n + 4)%N
  else if (n =? 43)%N then Some 62%N
  else if (n =? 47)%N then Some 63%N
  else if (n =? 61)%N then Some 64%N
  else None.

Definition byte_of (n : N) : Byte.byte :=
  default Byte.x00 (Byte.of_N (n mod 256)%N).

Definition binascii_Error : exn := Exn "binascii.Error" "Incorrect padding".

Fixpoint b64_quads (l : list N) : exn + bytes :=
  match l with
  | [] => inr []
  | a :: b :: c :: d :: rest =>
      let v := (a * 262144 + b * 4096 + (c mod 64) * 64 + d mod 64)%N in
      if (a <? 64)%N && (b <? 64)%N then
        if (c =? 64)%N then
          if (d =? 64)%N && bool_decide (rest = [])
          then inr [byte_of (v / 65536)]
          else inl binascii_Error
        else if (d =? 64)%N then
          if bool_decide (rest = [])
          then inr [byte_of (v / 65536); byte_of (v / 256)]
          else inl binascii_Error
        else
          match b64_quads rest with
          | inl e => inl e
          | inr tl =>
              inr (byte_of (v / 65536) :: byte_of (v / 256) :: byte_of v :: tl)
          end
      else inl binascii_Error
  | _ => inl binascii_Error
  end.

(** Base64 decoding that skips whatever is not a base64 digit, as
    [base64.decodebytes] does. *)
Definition b64_decode (bs : bytes) : exn + bytes :=
  b64_quads (omap b64_digit bs).

Module Examples.

Definition html : string := "<html><body><div id='vis'></div></body></html>".

Definition run := call_save_spec html utf8_encode b64_decode.

Definition w0 : world := World ∅ 0 0 ∅ ∅.

(** The name [tempfile.mkstemp] comes up with. *)
Definition tmp : string := "/tmp/tmpa1b2c3.html".

Definition png_uri : string := "data:image/png;base64,iVBORw0KGgo=".

Definition png_magic : bytes :=
  [Byte.x89; Byte.x50; Byte.x4e; Byte.x47;
   Byte.x0d; Byte.x0a; Byte.x1a; Byte.x0a].

(** Everything is installed and every call returns; the image is there
    at the first read. *)
Definition all_good (render : pyval) : env :=
  Env (fun _ => true) None None None (inr tmp)
      None None None None None None (fun _ => render) None None None.

(** The conversion never fills [window.image_render]. *)
Definition never_rendered : env :=
  Env (fun _ => true) None None None (inr tmp)
      None None None None None None (fun _ => PyNone) None None None.

(** The conversion has not finished at the first read of
    [window.image_render]; from the second read on the image is
    there. *)
Definition rendered_late : env :=
  Env (fun _ => true) None None None (inr tmp)
      None None None None None None
      (fun n => match n with
                | O => PyNone
                | S _ => PyStr png_uri
                end)
      None None None.

(** selenium is not installed. *)
Definition no_selenium : env :=
  Env (fun _ => false) None None None (inr tmp)
      None None None None None None (fun _ => PyNone) None None None.

(** The browser dies while the embed script runs. *)
Definition embed_fails : env :=
  Env (fun _ => true) None None None (inr tmp)
      None None None (Some (Exn "WebDriverException" "chrome not reachable"))
      None None (fun _ => PyNone) None None None.

(** Chrome cannot be started. *)
Definition chrome_missing : env :=
  Env (fun _ => true) None None
      (Some (Exn "WebDriverException" "chromedriver not in PATH"))
      (inr tmp) None None None None None None (fun _ => PyNone) None None None.

(** The temporary directory is not writable. *)
Definition no_tmpdir : env :=
  Env (fun _ => true) None None None
      (inl (Exn "PermissionError" "/tmp"))
      None None None None None None (fun _ => PyNone) None None None.

(** [os.remove] is refused: the descriptor [mkstemp] opened on the file is
    still open, and the platform does not delete open files. *)
Definition remove_denied (render : pyval) : env :=
  Env (fun _ => true) None None None (inr tmp)
      None None None None None None (fun _ => render)
      (Some (Exn "PermissionError"
                 "The process cannot access the file because it is being used by another process"))
      None None.

(** The browser is gone by the time [driver.close()] is sent. *)
Definition browser_gone (render : pyval) : env :=
  Env (fun _ => true) None None None (inr tmp)
      None None None None None None (fun _ => render) None
      (Some (Exn "WebDriverException" "chrome not reachable"))
      None.

(** The destination cannot be written. *)
Definition disk_full (render : pyval) : env :=
  Env (fun _ => true) None None None (inr tmp)
      None None None None None None (fun _ => render) None None
      (Some (Exn "OSError" "No space left on device")).

Definition bar_chart : json :=
  JDict [("mark", JStr "bar"); ("encoding", JDict [])].

(** A data URI cut in the middle of a base64 group. *)
Definition truncated_uri : string := "data:image/png;base64,iVB".

(** A string with a second comma after the payload. *)
Definition two_comma_uri : string :=
  "data:image/png;base64,iVBORw0KGgo=,trailing".

End Examples.


(** ** Reading a call's result *)

Definition outcome {A} (x : result A * world * list event) : result A := x.1.1.
Definition world_after {A} (x : result A * world * list event) : world := x.1.2.
Definition calls {A} (x : result A * world * list event) : list event := x.2.

Definition unsupported_format : exn :=
  NotImplementedError "save_spec only supports 'svg' and 'png'".

Definition invalid_mode : exn :=
  ValueError "mode must be 'vega' or 'vega-lite'".

(** What [fp] has received once [img] was written to it. *)
Definition delivered (fp : dest) (img : bytes) (w w' : world) : Prop :=
  match fp with
  | Path p => files w' = <[p := img]> (files w) ∧ sinks w' = sinks w
  | FileObj h =>
      files w' = files w
      ∧ sinks w' = <[h := default [] (sinks w !! h) ++ img]> (sinks w)
  end.

(** The module constant [CONVERT_CODE]: the conversion script of each
    format. *)
Definition CONVERT_CODE : gmap string string :=
  <["svg" := "
       window.view.toSVG().then(function(render) {
           window.image_render = render;
       })
       "]>
  (<["png" := "
       window.view.toCanvas().then(function(canvas) {
           window.image_render = canvas.toDataURL('image/png');
       })
       "]> ∅).

(** The module constant [EXTRACT_CODE]. *)
Definition EXTRACT_CODE : string := "
return window.image_render;
".

(** The text [driver.execute_script] is given for a conversion or an
    extraction; [None] for a format that is no key of [CONVERT_CODE], where
    [CONVERT_CODE[format]] raises KeyError. *)
Definition script_text (c : script) : option string :=
  match c with
  | EmbedCode _ _ => None
  | ConvertCode fmt => CONVERT_CODE !! fmt
  | ExtractCode => Some EXTRACT_CODE
  end.

(** The exception of the first step that fails between the creation of
    the temporary file and the end of the inner [try] block (lines
    104-110), if one does. *)
Definition session_failure (E : env) : option exn :=
  match open_w E with
  | Some e => Some e
  | None =>
  match write_html E with
  | Some e => Some e
  | None =>
  match driver_get E with
  | Some e => Some e
  | None =>
  match run_embed E with
  | Some e => Some e
  | None =>
  match run_convert E with
  | Some e => Some e
  | None => run_extract E
  end end end end end.

(** The exception with which the two [finally] clauses leave when a
    release raises: that of [driver.close()], which runs last and replaces
    whatever was raised before, else that of [os.remove]. *)
Definition release_failure (E : env) : option exn :=
  match close_browser E with
  | Some e => Some e
  | None => remove_tmp E
  end.

(** ** Symbolic execution *)

(** Unfolds the monad and the world's operations, leaving the maps and the
    string functions alone. *)
Ltac py_run :=
  cbv [call_save_spec save_spec browser_session decode_and_write build_opt
       try_finally bind ret raise emit answer lift
       webdriver_Chrome driver_close tempfile_mkstemp open_write os_remove
       execute_script attempt_import write_file_or_filename
       get_world put_world set_driver set_name read_driver read_name
       st_world st_locals st_trace l_driver l_name
       tmpfiles browsers descriptors files sinks
       importable options_new add_argument chrome_start mkstemp_pick open_w
       write_html driver_get run_embed run_convert run_extract
       image_render_at remove_tmp close_browser write_dest
       outcome world_after calls fst snd negb rev app].

(** The same once the format is known. *)
Ltac py_run_format :=
  py_run;
  change (String.eqb "png" "png") with true;
  change (String.eqb "svg" "png") with false;
  py_run.

(** Splits on the answer the run is waiting for. *)
Ltac py_case :=
  match goal with
  | |- context [match ?x with _ => _ end] =>
      lazymatch x with
      | context [match _ with _ => _ end] => fail
      | _ => first [ is_var x; destruct x | destruct x eqn:? ]
      end;
      py_run
  end.

(** Membership in an explicit list of calls. *)
Ltac in_calls H :=
  repeat (apply elem_of_cons in H as [H|H]; [simplify_eq|]);
  try (by apply elem_of_nil in H).

(** An event is in an explicit list of calls. *)
Ltac is_call :=
  repeat first [ apply list_elem_of_here | apply list_elem_of_further ].

(** The file [os.remove] is asked to delete is there. *)
Ltac py_absurd :=
  match goal with
  | H : <[?n:=_]> _ !! ?n = None |- _ => by rewrite lookup_insert_eq in H
  end.

(** ** The monad and [try ... finally] *)

Lemma bind_ret_l {A B} (a : A) (k : A -> M B) st : bind (ret a) k st = k a st.
Proof. done. Qed.

Lemma bind_raise {A B} (e : exn) (k : A -> M B) st :
  bind (raise e) k st = (Raise e, st).
Proof. done. Qed.

(** The [finally] clause runs from the state the body left, whatever the
    body did, and the state it leaves is the final one. *)
Lemma try_finally_state {A} (body : M A) (fin : M unit) st :
  (try_finally body fin st).2 = (fin (body st).2).2.
Proof.
  unfold try_finally. destruct (body st) as [r st1]. simpl.
  by destruct (fin st1) as [[[]|e] st2].
Qed.

(** A [finally] clause that returns lets the body's outcome through. *)
Lemma try_finally_through {A} (body : M A) (fin : M unit) st r st1 st2 :
  body st = (r, st1) -> fin st1 = (Ok tt, st2) ->
  try_finally body fin st = (r, st2).
Proof. unfold try_finally. by intros -> ->. Qed.

(** A [finally] clause that raises replaces the body's outcome, an
    exception of the body included. *)
Lemma try_finally_replaces {A} (body : M A) (fin : M unit) st r st1 e st2 :
  body st = (r, st1) -> fin st1 = (Raise e, st2) ->
  try_finally body fin st = (Raise e, st2).
Proof. unfold try_finally. by intros -> ->. Qed.

(** ** Splitting and joining *)

Lemma str_append_assoc a b c : (a +:+ b) +:+ c = a +:+ (b +:+ c).
Proof.
  induction a as [|x a IH]; [done|].
  change (String x ((a +:+ b) +:+ c) = String x (a +:+ (b +:+ c))).
  by rewrite IH.
Qed.

Lemma str_append_cons x a b : String x a +:+ b = String x (a +:+ b).
Proof. done. Qed.

Section Split.

Variable sep : ascii.

Lemma str_split_nonempty s : str_split sep s ≠ [].
Proof.
  destruct s as [|c s]; simpl; [done|].
  destruct (Ascii.eqb c sep); [done|].
  by destruct (str_split sep s).
Qed.

Lemma str_split_sep s :
  str_split sep (String sep s) = EmptyString :: str_split sep s.
Proof. simpl. by rewrite Ascii.eqb_refl. Qed.

Lemma str_split_other c s :
  c ≠ sep ->
  ∃ seg rest, str_split sep s = seg :: rest
              ∧ str_split sep (String c s) = String c seg :: rest.
Proof.
  intros Hc. simpl. apply Ascii.eqb_neq in Hc. rewrite Hc.
  destruct (str_split sep s) as [|seg rest] eqn:Hs.
  - by apply str_split_nonempty in Hs.
  - by exists seg, rest.
Qed.

(** A string without the separator is one segment. *)
Lemma str_split_none s :
  str_contains sep s = false -> str_split sep s = [s].
Proof.
  induction s as [|c s IH]; simpl; [done|].
  intros [Hc Hs]%orb_false_iff.
  rewrite Hc, (IH Hs). done.
Qed.

(** Joining what [str_split] cut gives the string back. *)
Lemma str_join_split s : str_join sep (str_split sep s) = s.
Proof.
  induction s as [|c s IH]; [done|].
  destruct (decide (c = sep)) as [->|Hc].
  - rewrite str_split_sep.
    destruct (str_split sep s) as [|y l] eqn:Hs;
      [by apply str_split_nonempty in Hs|].
    change (str_join sep (EmptyString :: y :: l))
      with (String sep (str_join sep (y :: l))).
    by rewrite IH.
  - destruct (str_split_other c s Hc) as (seg & rest & Hs & ->).
    rewrite Hs in IH. destruct rest as [|y l].
    + simpl in *. by rewrite IH.
    + change (str_join sep (String c seg :: y :: l))
        with (String c (str_join sep (seg :: y :: l))).
      by rewrite IH.
Qed.

Lemma str_join_snoc l x :
  l ≠ [] -> str_join sep (l ++ [x]) = str_join sep l +:+ String sep x.
Proof.
  induction l as [|y l IH]; [done|]. intros _.
  destruct l as [|z l]; [done|].
  change (str_join sep ((y :: z :: l) ++ [x]))
    with (y +:+ String sep (str_join sep ((z :: l) ++ [x]))).
  rewrite IH by done.
  change (str_join sep (y :: z :: l))
    with (y +:+ String sep (str_join sep (z :: l))).
  by rewrite !str_append_assoc.
Qed.

(** The last segment of [q + sep + ext] is [ext] when [ext] has no
    separator. *)
Lemma str_split_last_suffix q ext d :
  str_contains sep ext = false ->
  List.last (str_split sep (q +:+ String sep ext)) d = ext.
Proof.
  intros Hext. induction q as [|c q IH].
  - change (EmptyString +:+ String sep ext) with (String sep ext).
    rewrite str_split_sep, (str_split_none _ Hext). done.
  - change (String c q +:+ String sep ext)
      with (String c (q +:+ String sep ext)).
    destruct (decide (c = sep)) as [->|Hc].
    + rewrite str_split_sep.
      destruct (str_split sep (q +:+ String sep ext)) eqn:Hs;
        [by apply str_split_nonempty in Hs|].
      done.
    + destruct (str_split_other c (q +:+ String sep ext) Hc)
        as (seg & rest & Hs & ->).
      rewrite Hs in IH. destruct rest as [|y l]; [|done].
      simpl in IH. subst seg.
      pose proof (str_join_split (q +:+ String sep ext)) as Hj.
      rewrite Hs in Hj. simpl in Hj.
      assert (str_contains sep (q +:+ String sep ext) = true) as Hin.
      { clear. induction q as [|c' q IH]; simpl.
        - by rewrite Ascii.eqb_refl.
        - by rewrite IH, orb_true_r. }
      rewrite <- Hj, Hext in Hin. done.
Qed.

(** Conversely, a string whose last segment is [ext] is [ext] itself or
    ends in [sep + ext]. *)
Lemma str_split_last_inv s ext d :
  List.last (str_split sep s) d = ext ->
  s = ext ∨ ends_in s (String sep ext).
Proof.
  intros Hlast.
  pose proof (str_join_split s) as Hj.
  destruct (exists_last (str_split_nonempty s)) as (init & x & Hs).
  rewrite Hs in Hlast, Hj. rewrite last_last in Hlast. subst x.
  destruct init as [|y l].
  - left. by rewrite <- Hj.
  - right. exists (str_join sep (y :: l)).
    rewrite <- Hj. by apply str_join_snoc.
Qed.

(** A header and a payload, neither with a separator, cut in two. *)
Lemma str_split_two a b :
  str_contains sep a = false -> str_contains sep b = false ->
  str_split sep (a +:+ String sep b) = [a; b].
Proof.
  intros Ha Hb. induction a as [|c a IH].
  - change (EmptyString +:+ String sep b) with (String sep b).
    by rewrite str_split_sep, (str_split_none _ Hb).
  - simpl in Ha. apply orb_false_iff in Ha as [Hc Ha].
    rewrite str_append_cons. simpl. by rewrite Hc, (IH Ha).
Qed.

End Split.

Lemma str_endswith_nil suffix :
  str_endswith EmptyString suffix = String.eqb EmptyString suffix.
Proof. unfold str_endswith. apply orb_false_r. Qed.

Lemma str_endswith_cons c s suffix :
  str_endswith (String c s) suffix
  = String.eqb (String c s) suffix || str_endswith s suffix.
Proof. done. Qed.

Lemma str_endswith_spec s suffix :
  str_endswith s suffix = true ↔ ends_in s suffix.
Proof.
  split.
  - induction s as [|c s IH].
    + rewrite str_endswith_nil. intros ->%String.eqb_eq. by exists EmptyString.
    + rewrite str_endswith_cons.
      intros [<-%String.eqb_eq | Hs]%orb_true_iff.
      * by exists EmptyString.
      * destruct (IH Hs) as [q ->]. by exists (String c q).
  - intros [q ->]. induction q as [|c q IH].
    + change (EmptyString +:+ suffix) with suffix.
      destruct suffix as [|c s].
      * by rewrite str_endswith_nil.
      * by rewrite str_endswith_cons, String.eqb_refl.
    + by rewrite str_append_cons, str_endswith_cons, IH, orb_true_r.
Qed.

(** ** Format resolution and the checks before the browser *)

Lemma in_png_svg f :
  in_strs (Some f) ["png"; "svg"] = true ↔ f = "png" ∨ f = "svg".
Proof.
  unfold in_strs. rewrite bool_decide_eq_true, !elem_of_cons, elem_of_nil.
  tauto.
Qed.

(** No segment that [str_split] cuts contains the separator. *)
Lemma str_split_segments sep s seg :
  seg ∈ str_split sep s -> str_contains sep seg = false.
Proof.
  revert seg. induction s as [|c s IH]; intros seg Hin.
  - apply list_elem_of_singleton in Hin as ->. done.
  - destruct (decide (c = sep)) as [->|Hc].
    + rewrite str_split_sep in Hin.
      apply elem_of_cons in Hin as [-> | Hin]; [done|by apply IH].
    + destruct (str_split_other sep c s Hc) as (x & rest & Hs & Hcs).
      rewrite Hcs in Hin. rewrite Hs in IH.
      apply elem_of_cons in Hin as [-> | Hin].
      * simpl. apply Ascii.eqb_neq in Hc. rewrite Hc. simpl.
        apply IH. left.
      * apply IH. by right.
Qed.

(** The last segment of a path is [ext] exactly for the bare name [ext]
    and for the paths that end in [.ext]. *)
Lemma last_segment_inv p ext :
  List.last (str_split "." p) EmptyString = ext ->
  p = ext ∨ str_endswith p (String "." ext) = true.
Proof.
  intros [->|H]%str_split_last_inv; [by left|right].
  by apply str_endswith_spec.
Qed.

Lemma last_segment_suffix p ext :
  str_contains "." ext = false ->
  str_endswith p (String "." ext) = true ->
  resolve_format (Path p) None = Some ext.
Proof.
  intros Hext [q ->]%str_endswith_spec. simpl.
  by rewrite str_split_last_suffix.
Qed.

Section Checks.

Variable HTML_TEMPLATE : string.
Variable str_encode : string -> exn + bytes.
Variable base64_decodebytes : bytes -> exn + bytes.

Local Abbreviation call :=
  (call_save_spec HTML_TEMPLATE str_encode base64_decodebytes).

(** A format that is not one of the two is refused on the spot. *)
Lemma save_spec_refuses E spec fp mode format w :
  in_strs (resolve_format fp format) ["png"; "svg"] = false ->
  call E spec fp mode format w = (Raise unsupported_format, w, []).
Proof.
  intros Hf. py_run. destruct (resolve_format fp format) as [f|]; [|done].
  rewrite Hf. done.
Qed.

(** C10: with a file-like object as [fp] and no [format], the format
    stays [None] and the call raises NotImplementedError before any
    external call is made, leaving the world as it was. *)
Theorem save_spec_file_object_needs_format E spec h mode w :
  resolve_format (FileObj h) None = None
  ∧ call E spec (FileObj h) mode None w = (Raise unsupported_format, w, []).
Proof. split; [done|]. by apply save_spec_refuses. Qed.

(** C9: without [format], a string [fp] gives as format the last
    dot-separated segment of the whole string: what follows the last dot,
    whatever comes before it, and never a text with a dot in it; a string
    with no dot is its own format, so the bare name [png] passes the
    format check and the call goes on to start the browser session; the
    comparison distinguishes case, so a path ending in [.PNG] is refused
    with NotImplementedError. *)
Theorem save_spec_format_is_last_dot_segment E spec mode w p :
  resolve_format (Path p) None
    = Some (List.last (str_split "." p) EmptyString)
  ∧ (str_contains "." p = false -> resolve_format (Path p) None = Some p)
  ∧ (importable E "selenium.webdriver" = true ->
     importable E "selenium.webdriver.chrome.options" = true ->
     in_strs mode ["vega"; "vega-lite"] = true ∨ mode = None ->
     head (calls (call E spec (Path "png") mode None w)) = Some ENewOptions)
  ∧ call E spec (Path (p +:+ ".PNG")) mode None w
      = (Raise unsupported_format, w, [])
  ∧ (∀ ext, str_contains "." ext = false ->
            resolve_format (Path (p +:+ String "." ext)) None = Some ext)
  ∧ (∀ f, resolve_format (Path p) None = Some f ->
          str_contains "." f = false
          ∧ (p = f ∨ str_endswith p (String "." f) = true)).
Proof.
  split; [done|]. split; [|split; [|split; [|split]]].
  - intros Hp. simpl. by rewrite (str_split_none _ _ Hp).
  - intros Hw Ho Hm. destruct E; simpl in Hw, Ho. py_run.
    change (resolve_format (Path "png") None) with (Some "png").
    py_run. change (in_strs (Some "png") ["png"; "svg"]) with true.
    py_run. rewrite Hw, Ho. py_run.
    destruct Hm as [Hm | ->].
    + destruct mode as [m|]; [|done]. rewrite Hm. py_run.
      repeat py_case; done.
    + py_run. repeat py_case; done.
  - apply save_spec_refuses.
    change (String.append p ".PNG") with (p +:+ String "." "PNG").
    simpl. by rewrite str_split_last_suffix.
  - intros ext Hext. simpl. by rewrite str_split_last_suffix.
  - intros f Hf. simpl in Hf. injection Hf as Hf. split.
    + apply (str_split_segments "." p). rewrite <- Hf.
      destruct (exists_last (str_split_nonempty "." p)) as (l & x & ->).
      rewrite last_last. apply elem_of_app. right. left.
    + by apply last_segment_inv.
Qed.

(** Where the format does follow the extension: a path ending in [.png]
    resolves to [png] and one ending in [.svg] to [svg], and a path that
    ends in neither and is not one of the two bare names makes the call
    raise NotImplementedError before any external call, the world
    untouched. *)
Lemma save_spec_format_from_suffix E spec mode w p :
  (str_endswith p ".png" = true -> resolve_format (Path p) None = Some "png")
  ∧ (str_endswith p ".svg" = true ->
     resolve_format (Path p) None = Some "svg")
  ∧ (str_endswith p ".png" = false -> str_endswith p ".svg" = false ->
     p ≠ "png" -> p ≠ "svg" ->
     call E spec (Path p) mode None w = (Raise unsupported_format, w, [])).
Proof.
  split; [|split].
  - by apply last_segment_suffix.
  - by apply last_segment_suffix.
  - intros Hpng Hsvg Hp Hs. apply save_spec_refuses.
    apply not_true_is_false. intros [Hf|Hf]%in_png_svg;
      apply last_segment_inv in Hf as [?|Hf]; congruence.
Qed.

(** C3, as amended: a [mode] outside [vega] and [vega-lite] makes the
    call raise before any browser session is acquired: no external call
    is made and the world is as before.  The format check and the two
    imports come first, so the exception is the ValueError of the mode
    check when the format resolves to [png] or [svg] and selenium can be
    imported. *)
Theorem save_spec_invalid_mode_raises_early E spec fp m format w :
  in_strs (Some m) ["vega"; "vega-lite"] = false ->
  (∃ e, call E spec fp (Some m) format w = (Raise e, w, []))
  ∧ (in_strs (resolve_format fp format) ["png"; "svg"] = true ->
     importable E "selenium.webdriver" = true ->
     importable E "selenium.webdriver.chrome.options" = true ->
     call E spec fp (Some m) format w = (Raise invalid_mode, w, [])).
Proof.
  intros Hm. split.
  - destruct (in_strs (resolve_format fp format) ["png"; "svg"]) eqn:Hf.
    + destruct E as [imp ? ? ? ? ? ? ? ? ? ? ? ?]. py_run.
      destruct (resolve_format fp format) as [f|]; [|done].
      rewrite Hf. py_run.
      destruct (imp "selenium.webdriver"); py_run; [|eauto].
      destruct (imp "selenium.webdriver.chrome.options"); py_run; [|eauto].
      rewrite Hm. py_run. eauto.
    + eexists. by apply save_spec_refuses.
  - intros Hf Hw Ho. destruct E as [imp ? ? ? ? ? ? ? ? ? ? ? ?].
    simpl in Hw, Ho. py_run.
    destruct (resolve_format fp format) as [f|]; [|done].
    rewrite Hf. py_run. rewrite Hw, Ho. py_run. rewrite Hm. done.
Qed.

End Checks.

(** ** The browser session and the write *)

Lemma opt_renderer_mode (r m : string) :
  let opt : gmap string string := <["mode" := m]> {["renderer" := r]} in
  opt !! "renderer" = Some r ∧ opt !! "mode" = Some m
  ∧ ∀ k, is_Some (opt !! k) -> k = "renderer" ∨ k = "mode".
Proof.
  simpl. split; [done|]. split; [by rewrite lookup_insert_eq|].
  intros k [v Hk]. apply lookup_insert_Some in Hk as [[<- _]|[_ Hk]].
  - by right.
  - apply lookup_singleton_Some in Hk as [<- _]. by left.
Qed.

Lemma opt_renderer_only (r : string) :
  let opt : gmap string string := {["renderer" := r]} in
  opt !! "renderer" = Some r ∧ opt !! "mode" = None
  ∧ ∀ k, is_Some (opt !! k) -> k = "renderer" ∨ k = "mode".
Proof.
  simpl. split; [done|]. split; [done|].
  intros k [v Hk]. apply lookup_singleton_Some in Hk as [<- _]. by left.
Qed.

Section Session.

Variable HTML_TEMPLATE : string.
Variable str_encode : string -> exn + bytes.
Variable base64_decodebytes : bytes -> exn + bytes.

Local Abbreviation call :=
  (call_save_spec HTML_TEMPLATE str_encode base64_decodebytes).

(** The releases are attempted on every path: [os.remove] is called on
    the file [mkstemp] created and [driver.close()] on the browser that
    started.  When both return, the temporary directory and the number of
    live browser processes are afterwards what they were before. *)
Lemma resources_restored_when_releases_return E spec fp mode format w :
  let run := call E spec fp mode format w in
  remove_tmp E = None -> close_browser E = None ->
  tmpfiles (world_after run) = tmpfiles w
  ∧ browsers (world_after run) = browsers w
  ∧ (∀ sfx name, EMkstemp sfx (Some name) ∈ calls run ->
       tmpfiles (world_after run) !! name = None ∧ ERemove name ∈ calls run)
  ∧ (EChrome true ∈ calls run -> EClose ∈ calls run).
Proof.
  destruct E as [? ? ? ? ? ? ? ? ? ? ? ? rm cl ?], w.
  intros run; subst run. simpl. intros -> ->. py_run.
  repeat py_case; try py_absurd.
  all: rewrite ?delete_insert_eq, ?delete_id by done.
  all: (split; [done|]; split; [done|]; split).
  all: try (intros ? ? Hin; in_calls Hin; (split; [done|is_call])).
  all: intros Hin; in_calls Hin; is_call.
Qed.

(** C8: in a call that acquires both resources the browser process is
    acquired first and the temporary file second, and, whatever happens
    afterwards, the temporary file is released first and the browser
    process second: these four are the call's resource events, in this
    order. *)
Theorem save_spec_release_order E spec fp mode format w sfx name :
  let run := call E spec fp mode format w in
  EChrome true ∈ calls run ->
  EMkstemp sfx (Some name) ∈ calls run ->
  filter (λ e, is_resource_event e = true) (calls run)
  = [EChrome true; EMkstemp sfx (Some name); ERemove name; EClose].
Proof.
  destruct E, w. intros run; subst run. py_run.
  repeat py_case; try py_absurd.
  all: intros _ Hin; in_calls Hin; reflexivity.
Qed.

(** The two ways a call can end: without a call to write the destination,
    by an exception and with every destination as it was; or with such a
    call as the last one, made after both releases on the bytes decoded
    from the string that the single read of [image_render] gave. *)
Lemma run_cases E spec fp mode format w :
  let run := call E spec fp mode format w in
  (∃ e, outcome run = Raise e
        ∧ filter (λ ev, is_write_event ev = true) (calls run) = []
        ∧ files (world_after run) = files w
        ∧ sinks (world_after run) = sinks w)
  ∨ (∃ f s img pre,
       resolve_format fp format = Some f
       ∧ (f = "png" ∨ f = "svg")
       ∧ image_render_at E 0 = PyStr s
       ∧ img_bytes str_encode base64_decodebytes f s = inr img
       ∧ calls run = pre ++ [EWriteFileOrFilename fp img "wb"]
       ∧ filter (λ ev, is_write_event ev = true) pre = []
       ∧ EClose ∈ pre
       ∧ (outcome run = Ok tt ∧ delivered fp img w (world_after run)
          ∨ ∃ e, outcome run = Raise e ∧ write_dest E = Some e)).
Proof.
  intros run; subst run.
  destruct (in_strs (resolve_format fp format) ["png"; "svg"]) eqn:Hf.
  2:{ rewrite save_spec_refuses by done. left. by eexists. }
  destruct (resolve_format fp format) as [f|] eqn:Hres; [|done].
  destruct E, w. py_run. rewrite Hres. py_run. rewrite Hf. py_run.
  apply in_png_svg in Hf as [-> | ->]; py_run_format.
  all: repeat py_case; try py_absurd.
  all: try (left; eexists; by repeat split).
  all: right.
  all: match goal with H : _ = PyStr _ |- _ => cbn in H end.
  all: do 3 eexists.
  all: eexists (_ :: _ :: _ :: _ :: _ :: _ :: _ :: _ :: _ :: _ :: [_]).
  all: (split; [done|]; split; [eauto|]; split; [done|]).
  all: (split; [|split; [reflexivity|]; split; [reflexivity|]; split;
                  [is_call|]]).
  all: try (cbv [img_bytes];
            change (String.eqb "png" "png") with true;
            change (String.eqb "svg" "png") with false;
            cbv iota;
            repeat match goal with
                   | H : ?l = _ |- context [?l] => rewrite H
                   end;
            reflexivity).
  all: try (right; by eexists).
  all: left; split; [done|].
  all: rewrite ?delete_insert_eq, ?delete_id by done; done.
Qed.

(** C7: a call that raises has made no call to write the destination and
    leaves every destination as it was, the one exception being a write
    that itself raised; such a write is the last call of the run, made
    after the browser was closed, on bytes that were decoded without
    error. *)
Theorem save_spec_raise_writes_nothing E spec fp mode format w e :
  let run := call E spec fp mode format w in
  outcome run = Raise e ->
  (filter (λ ev, is_write_event ev = true) (calls run) = []
   ∧ files (world_after run) = files w
   ∧ sinks (world_after run) = sinks w)
  ∨ (write_dest E = Some e
     ∧ ∃ pre f s img,
         calls run = pre ++ [EWriteFileOrFilename fp img "wb"]
         ∧ filter (λ ev, is_write_event ev = true) pre = []
         ∧ EClose ∈ pre
         ∧ resolve_format fp format = Some f
         ∧ image_render_at E 0 = PyStr s
         ∧ img_bytes str_encode base64_decodebytes f s = inr img).
Proof.
  intros run; subst run; intros He.
  pose proof (run_cases E spec fp mode format w) as Hcases.
  cbv zeta in Hcases.
  destruct Hcases
    as [(e' & _ & Hnone) | (f & s & img & pre & Hf & _ & Hs & Himg & Hc & Hpre
                            & Hclose & Hend)].
  - by left.
  - right.
    destruct Hend as [[Hok _] | (e' & He' & Hw)]; [congruence|].
    split; [congruence|]. by exists pre, f, s, img.
Qed.

(** The embed script is run on the caller's spec and on the options of
    lines 92-96. *)
Lemma embed_call_inv E spec fp mode format w s opt :
  EExecuteScript (EmbedCode s opt) ∈ calls (call E spec fp mode format w) ->
  s = spec
  ∧ ∃ f r, resolve_format fp format = Some f
      ∧ (f = "png" ∧ r = "canvas" ∨ f = "svg" ∧ r = "svg")
      ∧ opt = match mode with
              | Some m => <["mode" := m]> {["renderer" := r]}
              | None => {["renderer" := r]}
              end.
Proof.
  destruct (in_strs (resolve_format fp format) ["png"; "svg"]) eqn:Hf.
  2:{ rewrite save_spec_refuses by done. intros Hin. in_calls Hin. }
  destruct (resolve_format fp format) as [f|] eqn:Hres; [|done].
  destruct E, w. py_run. rewrite Hres. py_run. rewrite Hf. py_run.
  apply in_png_svg in Hf as [-> | ->]; py_run_format.
  all: repeat py_case; try py_absurd.
  all: intros Hin; in_calls Hin.
  all: split; [done|]; do 2 eexists; split; [done|]; split; [|done]; eauto.
Qed.

(** C5: the options that reach the embed script have [renderer] equal to
    [canvas] for the format [png] and to [svg] for the format [svg],
    carry under [mode] exactly the [mode] argument, so the key is there
    if and only if the argument is not [None], and have no other key;
    the script is given the caller's spec. *)
Theorem save_spec_embed_options E spec fp mode format w s opt :
  let run := call E spec fp mode format w in
  EExecuteScript (EmbedCode s opt) ∈ calls run ->
  s = spec
  ∧ (resolve_format fp format = Some "png" ∧ opt !! "renderer" = Some "canvas"
     ∨ resolve_format fp format = Some "svg" ∧ opt !! "renderer" = Some "svg")
  ∧ opt !! "mode" = mode
  ∧ (is_Some (opt !! "mode") ↔ is_Some mode)
  ∧ ∀ k, is_Some (opt !! k) -> k = "renderer" ∨ k = "mode".
Proof.
  intros run Hin.
  apply embed_call_inv in Hin as (-> & f & r & -> & Hr & ->).
  split; [done|]. destruct mode as [m|].
  - destruct (opt_renderer_mode r m) as (Hren & Hmode & Hdom).
    rewrite Hren, Hmode. split; [|done].
    destruct Hr as [[-> ->]|[-> ->]]; eauto.
  - destruct (opt_renderer_only r) as (Hren & Hmode & Hdom).
    rewrite Hren, Hmode. split; [|done].
    destruct Hr as [[-> ->]|[-> ->]]; eauto.
Qed.

(** C6: in a call that returns, what is written to [fp] is, for the
    format [png], the base64 decoding of what follows the comma of the
    data URI read from [image_render] and, for the format [svg], the
    encoding of the string read; the write is in mode [wb], and the
    destination holds the bytes afterwards. *)
Theorem save_spec_writes_decoded_image E spec fp mode format w :
  let run := call E spec fp mode format w in
  outcome run = Ok tt ->
  ∃ s img,
    image_render_at E 0 = PyStr s
    ∧ last (calls run) = Some (EWriteFileOrFilename fp img "wb")
    ∧ delivered fp img w (world_after run)
    ∧ (resolve_format fp format = Some "png"
       ∧ (∀ header payload,
            s = header +:+ String "," payload ->
            str_contains "," header = false ->
            str_contains "," payload = false ->
            ∃ b, str_encode payload = inr b
                 ∧ base64_decodebytes b = inr img)
       ∨ resolve_format fp format = Some "svg" ∧ str_encode s = inr img).
Proof.
  intros run; subst run; intros Hok.
  pose proof (run_cases E spec fp mode format w) as Hcases.
  cbv zeta in Hcases.
  destruct Hcases
    as [(e' & He' & _) | (f & s & img & pre & Hf & Hfmt & Hs & Himg & Hc & _
                          & _ & Hend)]; [congruence|].
  destruct Hend as [[_ Hd] | (e' & He' & _)]; [|congruence].
  exists s, img. rewrite Hc, last_snoc.
  split; [done|]. split; [done|]. split; [done|].
  unfold img_bytes in Himg. destruct Hfmt as [-> | ->].
  - left. split; [done|]. intros header payload -> Hh Hp.
    change (String.eqb "png" "png") with true in Himg. cbv iota in Himg.
    rewrite str_split_two in Himg by done. simpl in Himg.
    destruct (str_encode payload) as [?|b]; [done|]. by exists b.
  - right. done.
Qed.

(** C4, as amended: the extraction script is run at most once in a
    call, right after the conversion script, with no polling and no
    timeout; when that single read finds [image_render] still unset, the
    call raises the AttributeError of the decoding step, the two releases
    having returned (the exception of a release that raised is the
    caller's instead), and writes nothing. *)
Theorem save_spec_reads_image_render_once E spec fp mode format w :
  let run := call E spec fp mode format w in
  length (filter (λ e, is_extract_event e = true) (calls run)) ≤ 1
  ∧ (EExecuteScript ExtractCode ∈ calls run ->
     (∃ pre post f,
        calls run = pre ++ [EExecuteScript (ConvertCode f);
                            EExecuteScript ExtractCode] ++ post)
     ∧ (run_extract E = None -> image_render_at E 0 = PyNone ->
        (outcome run
         = Raise (default (AttributeError "split") (release_failure E))
         ∨ outcome run
           = Raise (default (AttributeError "encode") (release_failure E)))
        ∧ filter (λ ev, is_write_event ev = true) (calls run) = [])).
Proof.
  intros run; subst run.
  destruct (in_strs (resolve_format fp format) ["png"; "svg"]) eqn:Hf.
  2:{ rewrite save_spec_refuses by done. split; [simpl; lia|].
      intros Hin. in_calls Hin. }
  destruct (resolve_format fp format) as [f|] eqn:Hres; [|done].
  destruct E, w. py_run. rewrite Hres. py_run. rewrite Hf. py_run.
  apply in_png_svg in Hf as [-> | ->]; py_run_format.
  all: repeat py_case; try py_absurd.
  all: (split; [vm_compute; lia|]).
  all: intros Hin; in_calls Hin.
  all: split;
    [ eexists (_ :: _ :: _ :: _ :: _ :: _ :: [_]), _, _; reflexivity | ].
  all: intros Hext Hnone; simplify_eq/=.
  all: try (match goal with H : _ = PyStr _ |- _ => cbn in H end; congruence).
  all: split; [eauto|reflexivity].
Qed.

End Session.


(** ** Failure paths, the protocol of calls and repeated calls *)

(** The keys of [CONVERT_CODE] are the formats that pass the check of line
    84. *)
Lemma CONVERT_CODE_keys f :
  is_Some (CONVERT_CODE !! f) ↔ in_strs (Some f) ["png"; "svg"] = true.
Proof.
  rewrite in_png_svg. unfold CONVERT_CODE. split.
  - intros [v Hv].
    apply lookup_insert_Some in Hv as [[<- _]|[_ Hv]]; [by right|].
    apply lookup_insert_Some in Hv as [[<- _]|[_ Hv]]; [by left|].
    by rewrite lookup_empty in Hv.
  - intros [-> | ->]; eexists; reflexivity.
Qed.

(** Only what lies between the first and the second separator counts as
    the second segment. *)
Lemma str_split_second sep a b rest :
  str_contains sep a = false -> str_contains sep b = false ->
  str_split sep (a +:+ String sep (b +:+ String sep rest)) !! 1%nat = Some b.
Proof.
  intros Ha Hb. induction a as [|c a IH].
  - change (EmptyString +:+ String sep (b +:+ String sep rest))
      with (String sep (b +:+ String sep rest)).
    rewrite str_split_sep. simpl.
    clear Ha. induction b as [|c b IHb].
    + change (EmptyString +:+ String sep rest) with (String sep rest).
      by rewrite str_split_sep.
    + simpl in Hb. apply orb_false_iff in Hb as [Hc Hb].
      rewrite str_append_cons. simpl. rewrite Hc.
      specialize (IHb Hb).
      destruct (str_split sep (b +:+ String sep rest)) as [|x l]; [done|].
      simpl in *. by simplify_eq.
  - simpl in Ha. apply orb_false_iff in Ha as [Hc Ha].
    rewrite str_append_cons. simpl. rewrite Hc.
    specialize (IH Ha).
    destruct (str_split sep (a +:+ String sep (b +:+ String sep rest)))
      as [|x l]; done.
Qed.

Section Paths.

Variable HTML_TEMPLATE : string.
Variable str_encode : string -> exn + bytes.
Variable base64_decodebytes : bytes -> exn + bytes.

Local Abbreviation call :=
  (call_save_spec HTML_TEMPLATE str_encode base64_decodebytes).

(** X1: when the session is entered and Chrome does not start (the
    options, the headless argument or the constructor raised), the outer
    [finally] reads the unbound [driver]: the caller gets UnboundLocalError
    in place of the launch error, [driver.close()] is not called and the
    world is as before. *)
Theorem launch_failure_masks_exception E spec fp mode format w :
  let run := call E spec fp mode format w in
  ENewOptions ∈ calls run ->
  (EChrome true ∉ calls run) ->
  outcome run = Raise (UnboundLocalError "driver")
  ∧ world_after run = w
  ∧ (EClose ∉ calls run)
  ∧ (is_Some (options_new E) ∨ is_Some (add_argument E)
     ∨ is_Some (chrome_start E)).
Proof.
  destruct E, w. intros run; subst run. py_run.
  repeat py_case; try py_absurd.
  all: intros Hin Hno; in_calls Hin.
  all: try (exfalso; apply Hno; solve [is_call]).
  all: split; [done|]; split; [done|]; split; [intros H; in_calls H|].
  all: simpl; eauto.
Qed.

(** X2: when Chrome started and [mkstemp] created no file, the inner
    [finally] reads the unbound [name]: the caller gets UnboundLocalError
    in place of the error of [mkstemp], [os.remove] is not called and
    [driver.close()] is; when it returns the world is as before, and when
    it raises its exception is the caller's and the browser is left. *)
Theorem mkstemp_failure_masks_exception E spec fp mode format w :
  let run := call E spec fp mode format w in
  EChrome true ∈ calls run ->
  (∀ sfx n, EMkstemp sfx (Some n) ∉ calls run) ->
  outcome run = Raise (default (UnboundLocalError "name") (close_browser E))
  ∧ (close_browser E = None -> world_after run = w)
  ∧ (is_Some (close_browser E) ->
     browsers (world_after run) = S (browsers w))
  ∧ EClose ∈ calls run
  ∧ (∀ n, ERemove n ∉ calls run).
Proof.
  destruct E, w. intros run; subst run. py_run.
  repeat py_case; try py_absurd.
  all: intros Hin Hno; in_calls Hin.
  all: try (exfalso; eapply Hno; solve [is_call]).
  all: split; [done|]; split; [done|]; split;
    [by intros [? ?]|]; split; [is_call|].
  all: intros n H; in_calls H.
Qed.

(** X3: once the temporary file exists and a step of lines 104-110 fails
    (writing the page, loading it, one of the three scripts), [os.remove]
    and [driver.close()] are the last two calls and nothing is written.
    The exception of the first step that failed reaches the caller
    unchanged when both releases return; a release that raises replaces
    it, [driver.close()] having the last word. *)
Theorem session_failure_reaches_caller E spec fp mode format w sfx name e :
  let run := call E spec fp mode format w in
  EMkstemp sfx (Some name) ∈ calls run ->
  session_failure E = Some e ->
  outcome run = Raise (default e (release_failure E))
  ∧ [ERemove name; EClose] `suffix_of` calls run
  ∧ filter (λ ev, is_write_event ev = true) (calls run) = [].
Proof.
  destruct E, w. intros run; subst run. py_run.
  repeat py_case; try py_absurd.
  all: intros Hin Hfail; in_calls Hin.
  all: cbv in Hfail; simplify_eq.
  all: split; [done|]; split; [|done].
  all: first [ by eexists [_;_;_;_;_]
             | by eexists [_;_;_;_;_;_]
             | by eexists [_;_;_;_;_;_;_]
             | by eexists [_;_;_;_;_;_;_;_]
             | by eexists [_;_;_;_;_;_;_;_;_] ].
Qed.

(** X4: with [format] given, [fp] plays no part before the write: two
    calls that differ in [fp] only make the same calls up to the write
    and write the same bytes in the same mode; a given format other than
    [png] and [svg] is refused whatever the path ends in. *)
Theorem explicit_format_ignores_destination E spec fp fp' mode f w :
  let r := call E spec fp mode (Some f) w in
  let r' := call E spec fp' mode (Some f) w in
  filter (λ ev, is_write_event ev = false) (calls r)
  = filter (λ ev, is_write_event ev = false) (calls r')
  ∧ (∀ img m, EWriteFileOrFilename fp img m ∈ calls r
              ↔ EWriteFileOrFilename fp' img m ∈ calls r')
  ∧ (in_strs (Some f) ["png"; "svg"] = false ->
     r = (Raise unsupported_format, w, [])).
Proof.
  intros r r'; subst r r'.
  assert (∀ d, resolve_format d (Some f) = Some f) as Hres by by intros [].
  destruct (in_strs (Some f) ["png"; "svg"]) eqn:Hf.
  2:{ rewrite !save_spec_refuses by by rewrite Hres.
      split; [done|]. split; [|done].
      intros img m. split; intros H; in_calls H. }
  destruct E, w. py_run. rewrite !Hres. py_run. rewrite Hf. py_run.
  apply in_png_svg in Hf as [-> | ->]; py_run_format.
  all: repeat py_case; try py_absurd.
  all: (split; [reflexivity|]; split; [|done]).
  all: intros img m; split; intros H; in_calls H; is_call.
Qed.

(** X5: a call that returns has made exactly these twelve calls, in
    this order, and none of its steps raised, the two releases
    included. *)
Theorem success_protocol E spec fp mode format w :
  let run := call E spec fp mode format w in
  outcome run = Ok tt ->
  ∃ name opt f img,
    mkstemp_pick E = inr name
    ∧ calls run
      = [ENewOptions; EAddArgument "--headless"; EChrome true;
         EMkstemp ".html" (Some name); EOpenWrite name HTML_TEMPLATE;
         EGet ("file://" +:+ name);
         EExecuteScript (EmbedCode spec opt);
         EExecuteScript (ConvertCode f); EExecuteScript ExtractCode;
         ERemove name; EClose; EWriteFileOrFilename fp img "wb"]
    ∧ session_failure E = None
    ∧ options_new E = None ∧ add_argument E = None ∧ chrome_start E = None
    ∧ write_dest E = None
    ∧ release_failure E = None.
Proof.
  destruct E, w. intros run; subst run. py_run.
  repeat py_case; try py_absurd; try done.
  all: intros _; do 4 eexists; repeat split; reflexivity.
Qed.

(** X6: the browser is only ever sent to the temporary file of the
    call: a page is loaded from [file://] followed by the name [mkstemp]
    returned, a name that did not exist before, right after
    [HTML_TEMPLATE] was written under it. *)
Theorem browser_opens_only_the_temp_file E spec fp mode format w url :
  let run := call E spec fp mode format w in
  EGet url ∈ calls run ->
  ∃ name post,
    url = "file://" +:+ name
    ∧ mkstemp_pick E = inr name
    ∧ tmpfiles w !! name = None
    ∧ calls run
      = [ENewOptions; EAddArgument "--headless"; EChrome true;
         EMkstemp ".html" (Some name); EOpenWrite name HTML_TEMPLATE;
         EGet url] ++ post.
Proof.
  destruct E, w. intros run; subst run. py_run.
  repeat py_case; try py_absurd.
  all: intros Hin; in_calls Hin.
  all: do 2 eexists; repeat split; try reflexivity; done.
Qed.

(** X7: Chrome is never started without the headless argument: a call
    of the constructor comes right after [--headless] was added to new
    options, and no other argument is ever added. *)
Theorem chrome_is_started_headless E spec fp mode format w :
  let run := call E spec fp mode format w in
  (∀ b, EChrome b ∈ calls run ->
        ∃ post, calls run
                = [ENewOptions; EAddArgument "--headless"; EChrome b] ++ post)
  ∧ (∀ arg, EAddArgument arg ∈ calls run -> arg = "--headless").
Proof.
  destruct E, w. intros run; subst run. py_run.
  repeat py_case; try py_absurd.
  all: split; [intros b Hin|intros arg Hin]; in_calls Hin; try done.
  all: by eexists.
Qed.

(** X8: the conversion script that is run is the one of the resolved
    format, which is a key of [CONVERT_CODE] (line 109 raises no
    KeyError), and it comes right after the embed script on the caller's
    spec. *)
Theorem conversion_script_of_format E spec fp mode format w f :
  let run := call E spec fp mode format w in
  EExecuteScript (ConvertCode f) ∈ calls run ->
  resolve_format fp format = Some f
  ∧ is_Some (script_text (ConvertCode f))
  ∧ ∃ pre post opt,
      calls run = pre ++ [EExecuteScript (EmbedCode spec opt);
                          EExecuteScript (ConvertCode f)] ++ post.
Proof.
  intros run; subst run.
  destruct (in_strs (resolve_format fp format) ["png"; "svg"]) eqn:Hf.
  2:{ rewrite save_spec_refuses by done. intros Hin. in_calls Hin. }
  destruct (resolve_format fp format) as [f0|] eqn:Hres; [|done].
  pose proof (proj2 (CONVERT_CODE_keys f0) Hf) as Hkey.
  destruct E, w. py_run. rewrite Hres. py_run. rewrite Hf. py_run.
  repeat py_case; try py_absurd.
  all: intros Hin; in_calls Hin.
  all: split; [done|]; split; [done|].
  all: by eexists [_;_;_;_;_;_], _, _.
Qed.

(** Once [image_render] was read as a string, the call is decided by
    what lines 117 and 120 make of it. *)
Lemma decode_cases E spec fp mode format w :
  let run := call E spec fp mode format w in
  EExecuteScript ExtractCode ∈ calls run ->
  run_extract E = None ->
  ∀ f s,
    resolve_format fp format = Some f ->
    image_render_at E 0 = PyStr s ->
    match img_bytes str_encode base64_decodebytes f s with
    | inl e =>
        outcome run = Raise (default e (release_failure E))
        ∧ filter (λ ev, is_write_event ev = true) (calls run) = []
        ∧ EClose ∈ calls run
    | inr img =>
        release_failure E = None ->
        EWriteFileOrFilename fp img "wb" ∈ calls run
    end.
Proof.
  intros run; subst run.
  destruct (in_strs (resolve_format fp format) ["png"; "svg"]) eqn:Hf.
  2:{ rewrite save_spec_refuses by done. intros Hin. in_calls Hin. }
  destruct (resolve_format fp format) as [f0|] eqn:Hres; [|done].
  destruct E, w. py_run. rewrite Hres. py_run. rewrite Hf. py_run.
  apply in_png_svg in Hf as [-> | ->]; py_run_format.
  all: repeat py_case; try py_absurd.
  all: try match goal with
           | H : context [length ?l] |- _ => change (length l) with 0%nat in H
           end.
  all: intros Hin Hext fmt txt Hfmt Hs; in_calls Hin; simplify_eq.
  all: try discriminate Hext.
  all: try congruence.
  all: try match goal with
       | H1 : ?x = PyStr ?a, H2 : ?x = PyStr ?b |- _ =>
           tryif constr_eq a b then fail
           else (assert (a = b) by congruence; subst)
       end.
  all: cbv [img_bytes];
       change (String.eqb "png" "png") with true;
       change (String.eqb "svg" "png") with false;
       cbv iota;
       repeat match goal with
              | H : ?l = _ |- context [?l] => rewrite H
              end.
  all: repeat case_match.
  all: solve [ intros _; is_call | by intros ?
             | split; [done|]; split; [done|is_call] ].
Qed.

(** X9: when the string read from [image_render] cannot be decoded
    (line 117 or 120 raises), that exception reaches the caller, the two
    releases having returned (the exception of a release that raised is
    the caller's instead); nothing is written and [driver.close()] was
    called. *)
Theorem decode_error_reaches_caller E spec fp mode format w f s e :
  let run := call E spec fp mode format w in
  EExecuteScript ExtractCode ∈ calls run ->
  run_extract E = None ->
  resolve_format fp format = Some f ->
  image_render_at E 0 = PyStr s ->
  img_bytes str_encode base64_decodebytes f s = inl e ->
  outcome run = Raise (default e (release_failure E))
  ∧ filter (λ ev, is_write_event ev = true) (calls run) = []
  ∧ EClose ∈ calls run.
Proof.
  intros run Hin Hext Hf Hs Himg.
  pose proof (decode_cases E spec fp mode format w Hin Hext f s Hf Hs) as H.
  by rewrite Himg in H.
Qed.

(** X10: for the format [png], a string without a comma read from
    [image_render] makes the call raise IndexError, from
    [split(',')[1]], the two releases having returned (the exception of a
    release that raised is the caller's instead); nothing is written. *)
Theorem png_without_comma_is_index_error E spec fp mode format w s :
  let run := call E spec fp mode format w in
  EExecuteScript ExtractCode ∈ calls run ->
  run_extract E = None ->
  resolve_format fp format = Some "png" ->
  image_render_at E 0 = PyStr s ->
  str_contains "," s = false ->
  outcome run = Raise (default IndexError (release_failure E))
  ∧ filter (λ ev, is_write_event ev = true) (calls run) = [].
Proof.
  intros run Hin Hext Hf Hs Hcomma.
  pose proof (decode_cases E spec fp mode format w Hin Hext "png" s Hf Hs)
    as H.
  unfold img_bytes in H. rewrite (str_split_none _ _ Hcomma) in H.
  change (String.eqb "png" "png") with true in H. simpl in H.
  by destruct H as (? & ? & _).
Qed.

(** X11: for the format [png], what is decoded is what stands between
    the first and the second comma of the string read: text after a second
    comma is dropped. *)
Theorem png_payload_ends_at_second_comma E spec fp mode format w
    header payload rest :
  let run := call E spec fp mode format w in
  outcome run = Ok tt ->
  resolve_format fp format = Some "png" ->
  image_render_at E 0 = PyStr (header +:+ String "," (payload +:+ String "," rest)) ->
  str_contains "," header = false ->
  str_contains "," payload = false ->
  ∃ b img, str_encode payload = inr b
           ∧ base64_decodebytes b = inr img
           ∧ last (calls run) = Some (EWriteFileOrFilename fp img "wb").
Proof.
  intros run; subst run; intros Hok Hf Hs Hh Hp.
  pose proof (run_cases HTML_TEMPLATE str_encode base64_decodebytes
                E spec fp mode format w) as Hcases.
  cbv zeta in Hcases.
  destruct Hcases
    as [(e' & He' & _) | (f & s & img & pre & Hf' & _ & Hs' & Himg & Hc & _)];
    [congruence|].
  assert (f = "png") as -> by congruence.
  assert (s = header +:+ String "," (payload +:+ String "," rest)) as ->
    by congruence.
  unfold img_bytes in Himg.
  change (String.eqb "png" "png") with true in Himg. cbv iota in Himg.
  rewrite str_split_second in Himg by done.
  destruct (str_encode payload) as [?|b]; [done|].
  exists b, img. by rewrite Hc, last_snoc.
Qed.

(** X12: the descriptor that [mkstemp] returns is never closed.  A call
    in which [mkstemp] created its file leaves one more open descriptor
    than it found, whether it returns or raises and whether or not the
    file was removed; every other call leaves their number as it was. *)
Theorem mkstemp_descriptor_stays_open E spec fp mode format w :
  let run := call E spec fp mode format w in
  (∀ sfx name, EMkstemp sfx (Some name) ∈ calls run ->
     descriptors (world_after run) = S (descriptors w))
  ∧ ((∀ sfx name, EMkstemp sfx (Some name) ∉ calls run) ->
     descriptors (world_after run) = descriptors w).
Proof.
  destruct E, w. intros run; subst run. py_run.
  repeat py_case; try py_absurd.
  all: split; [intros sfx name Hin; in_calls Hin; done|intros Hno].
  all: first [ done | exfalso; eapply Hno; solve [is_call] ].
Qed.

(** X13: a call writes at most once, to [fp] and to nothing else, in
    mode [wb], and the write is its last call. *)
Theorem at_most_one_write_to_fp E spec fp mode format w fp' img m :
  let run := call E spec fp mode format w in
  EWriteFileOrFilename fp' img m ∈ calls run ->
  fp' = fp ∧ m = "wb"
  ∧ filter (λ ev, is_write_event ev = true) (calls run)
    = [EWriteFileOrFilename fp img "wb"]
  ∧ last (calls run) = Some (EWriteFileOrFilename fp img "wb").
Proof.
  intros run; subst run; intros Hin.
  pose proof (run_cases HTML_TEMPLATE str_encode base64_decodebytes
                E spec fp mode format w) as Hcases.
  cbv zeta in Hcases.
  destruct Hcases
    as [(e' & _ & Hnone & _) | (f & s & img' & pre & _ & _ & _ & _ & Hc
                                & Hpre & _)].
  - exfalso. eapply (filter_nil_not_elem_of _ _ _ Hnone); [|exact Hin]. done.
  - rewrite Hc in Hin |- *.
    apply elem_of_app in Hin as [Hin|Hin].
    + exfalso. eapply (filter_nil_not_elem_of _ _ _ Hpre); [|exact Hin]. done.
    + apply list_elem_of_singleton in Hin. simplify_eq.
      rewrite filter_app, Hpre, last_snoc. done.
Qed.

End Paths.

(** X14: the format inferred from a path is never missing and never
    contains a dot; the path is that format alone or ends in a dot
    followed by it. *)
Theorem inferred_format_is_last_segment p :
  ∃ f, resolve_format (Path p) None = Some f
       ∧ str_contains "." f = false
       ∧ (p = f ∨ ends_in p (String "." f)).
Proof.
  exists (List.last (str_split "." p) EmptyString). split; [done|]. split.
  - apply (str_split_segments "." p).
    destruct (exists_last (str_split_nonempty "." p)) as (l & x & ->).
    rewrite last_last. apply elem_of_app. right. left.
  - by eapply str_split_last_inv.
Qed.


(** ** Runs of the model *)

Module Runs.

Import Examples.

Example png_export :
  run (all_good (PyStr png_uri)) bar_chart (Path "chart.png") None None w0
  = (Ok tt,
     World ∅ 0 1 {["chart.png" := png_magic]} ∅,
     [ENewOptions; EAddArgument "--headless"; EChrome true;
      EMkstemp ".html" (Some tmp); EOpenWrite tmp html;
      EGet ("file://" +:+ tmp);
      EExecuteScript (EmbedCode bar_chart {["renderer" := "canvas"]});
      EExecuteScript (ConvertCode "png"); EExecuteScript ExtractCode;
      ERemove tmp; EClose;
      EWriteFileOrFilename (Path "chart.png") png_magic "wb"]).
Proof. vm_compute. reflexivity. Qed.

Example svg_export_to_file_object :
  run (all_good (PyStr "<svg></svg>")) bar_chart (FileObj 3)
      (Some "vega-lite") (Some "svg") w0
  = (Ok tt,
     World ∅ 0 1 ∅ {[3%nat := String.list_byte_of_string "<svg></svg>"]},
     [ENewOptions; EAddArgument "--headless"; EChrome true;
      EMkstemp ".html" (Some tmp); EOpenWrite tmp html;
      EGet ("file://" +:+ tmp);
      EExecuteScript
        (EmbedCode bar_chart
           (<["mode" := "vega-lite"]> {["renderer" := "svg"]}));
      EExecuteScript (ConvertCode "svg"); EExecuteScript ExtractCode;
      ERemove tmp; EClose;
      EWriteFileOrFilename (FileObj 3)
        (String.list_byte_of_string "<svg></svg>") "wb"]).
Proof. vm_compute. reflexivity. Qed.

(** When Chrome does not start, [driver] is never bound: the outer
    [finally] raises on reading it, and this is the exception the caller
    sees.  There is neither a browser nor a temporary file. *)
Example launch_failure :
  run chrome_missing bar_chart (Path "chart.png") None None w0
  = (Raise (UnboundLocalError "driver"), w0,
     [ENewOptions; EAddArgument "--headless"; EChrome false]).
Proof. vm_compute. reflexivity. Qed.

(** When [mkstemp] fails, [name] is never bound: the inner [finally]
    raises on reading it, [os.remove] is not called, and the outer
    [finally] still closes the browser. *)
Example mkstemp_failure :
  run no_tmpdir bar_chart (Path "chart.png") None None w0
  = (Raise (UnboundLocalError "name"), w0,
     [ENewOptions; EAddArgument "--headless"; EChrome true;
      EMkstemp ".html" None; EClose]).
Proof. vm_compute. reflexivity. Qed.

(** A script that fails: both releases run and the exception of the
    script is the caller's. *)
Example script_failure :
  run embed_fails bar_chart (Path "chart.png") None None w0
  = (Raise (Exn "WebDriverException" "chrome not reachable"),
     World ∅ 0 1 ∅ ∅,
     [ENewOptions; EAddArgument "--headless"; EChrome true;
      EMkstemp ".html" (Some tmp); EOpenWrite tmp html;
      EGet ("file://" +:+ tmp);
      EExecuteScript (EmbedCode bar_chart {["renderer" := "canvas"]});
      ERemove tmp; EClose]).
Proof. vm_compute. reflexivity. Qed.

(** Without selenium nothing is started. *)
Example missing_selenium :
  run no_selenium bar_chart (Path "chart.svg") (Some "vegalite") None w0
  = (Raise (Exn "ImportError" "save_spec requires the selenium package"),
     w0, []).
Proof. vm_compute. reflexivity. Qed.

(** A string without a comma where a data URI is expected. *)
Example not_a_data_uri :
  outcome (run (all_good (PyStr "iVBORw0KGgo=")) bar_chart (Path "chart.png")
               None None w0)
  = Raise IndexError.
Proof. vm_compute. reflexivity. Qed.

(** A write that fails comes last, after both releases. *)
Example write_failure :
  let r := run (disk_full (PyStr "<svg/>")) bar_chart (Path "chart.svg")
               None None w0 in
  outcome r = Raise (Exn "OSError" "No space left on device")
  ∧ drop 9 (calls r)
    = [ERemove tmp; EClose;
       EWriteFileOrFilename (Path "chart.svg")
         (String.list_byte_of_string "<svg/>") "wb"].
Proof. split; vm_compute; reflexivity. Qed.

(** C2: the code at the input where it departs from the claim.  The
    path [png] has no extension and ends neither in [.png] nor in [.svg],
    yet the call is not refused: it starts a browser, returns and leaves
    a PNG file called [png]. *)
Lemma bare_png_is_exported :
  let r := run (all_good (PyStr png_uri)) bar_chart (Path "png") None None w0 in
  str_endswith "png" ".png" = false
  ∧ str_endswith "png" ".svg" = false
  ∧ outcome r = Ok tt
  ∧ EChrome true ∈ calls r
  ∧ files (world_after r) !! "png" = Some png_magic.
Proof.
  repeat split; try reflexivity.
  vm_compute. is_call.
Qed.

(** C3, counterexample: with the mode [vegalite], which is neither
    [vega] nor [vega-lite], and a path ending in [.gif], the call raises
    the NotImplementedError of the format check, not the ValueError of
    the mode check. *)
Lemma invalid_mode_behind_bad_format :
  in_strs (Some "vegalite") ["vega"; "vega-lite"] = false
  ∧ run (all_good PyNone) bar_chart (Path "chart.gif") (Some "vegalite")
        None w0
    = (Raise unsupported_format, w0, [])
  ∧ unsupported_format ≠ invalid_mode.
Proof. repeat split; try reflexivity. discriminate. Qed.

(** C4, counterexample: [image_render] is read once and never again.
    When it is never filled the call ends in an AttributeError, not in a
    timeout error; when it is filled by the time of a second read, the
    call has already failed on the first. *)
Lemma image_render_is_not_polled :
  let never :=
    run never_rendered bar_chart (Path "chart.png") None None w0 in
  let late :=
    run rendered_late bar_chart (Path "chart.png") None None w0 in
  (∀ n, image_render_at never_rendered n = PyNone)
  ∧ outcome never = Raise (AttributeError "split")
  ∧ exn_class (AttributeError "split") ≠ "RenderTimeout"
  ∧ length (filter (λ e, is_extract_event e = true) (calls never)) = 1%nat
  ∧ image_render_at rendered_late 1 = PyStr png_uri
  ∧ outcome late = Raise (AttributeError "split")
  ∧ length (filter (λ e, is_extract_event e = true) (calls late)) = 1%nat.
Proof. repeat split; try reflexivity. discriminate. Qed.

(** The theorems of the claims, applied to these runs. *)

Lemma save_spec_format_is_last_dot_segment_witness :
  resolve_format (Path "png") None = Some "png"
  ∧ head (calls (run (all_good (PyStr png_uri)) bar_chart (Path "png")
                     None None w0))
    = Some ENewOptions
  ∧ run (all_good PyNone) bar_chart (Path "chart.PNG") None None w0
    = (Raise unsupported_format, w0, [])
  ∧ resolve_format (Path "archive.tar.png") None = Some "png"
  ∧ str_contains "." "svg" = false
  ∧ ("out.d/chart.svg" = "svg"
     ∨ str_endswith "out.d/chart.svg" ".svg" = true).
Proof.
  destruct (save_spec_format_is_last_dot_segment html utf8_encode b64_decode
              (all_good (PyStr png_uri)) bar_chart None w0 "png")
    as (_ & Hbare & Hpass & _).
  destruct (save_spec_format_is_last_dot_segment html utf8_encode b64_decode
              (all_good PyNone) bar_chart None w0 "chart")
    as (_ & _ & _ & Hcase & _).
  destruct (save_spec_format_is_last_dot_segment html utf8_encode b64_decode
              (all_good PyNone) bar_chart None w0 "archive.tar")
    as (_ & _ & _ & _ & Hlast & _).
  destruct (save_spec_format_is_last_dot_segment html utf8_encode b64_decode
              (all_good PyNone) bar_chart None w0 "out.d/chart.svg")
    as (_ & _ & _ & _ & _ & Hpin).
  split; [apply Hbare; reflexivity|].
  split; [apply Hpass; [reflexivity|reflexivity|right; reflexivity]|].
  split; [exact Hcase|].
  split; [apply (Hlast "png"); reflexivity|].
  apply (Hpin "svg"). reflexivity.
Defined.

Lemma save_spec_format_from_suffix_witness :
  resolve_format (Path "chart.png") None = Some "png"
  ∧ resolve_format (Path "out/chart.svg") None = Some "svg"
  ∧ run (all_good PyNone) bar_chart (Path "chart.gif") None None w0
    = (Raise unsupported_format, w0, []).
Proof.
  split; [|split].
  - apply (save_spec_format_from_suffix html utf8_encode b64_decode
             (all_good PyNone) bar_chart None w0 "chart.png").
    reflexivity.
  - apply (save_spec_format_from_suffix html utf8_encode b64_decode
             (all_good PyNone) bar_chart None w0 "out/chart.svg").
    reflexivity.
  - apply (save_spec_format_from_suffix html utf8_encode b64_decode
             (all_good PyNone) bar_chart None w0 "chart.gif");
      [reflexivity|reflexivity|discriminate|discriminate].
Defined.

Lemma save_spec_invalid_mode_raises_early_witness :
  run (all_good PyNone) bar_chart (Path "chart.png") (Some "vegalite")
      None w0
  = (Raise invalid_mode, w0, []).
Proof.
  apply (save_spec_invalid_mode_raises_early html utf8_encode b64_decode
           (all_good PyNone) bar_chart (Path "chart.png") "vegalite" None w0);
    reflexivity.
Defined.

(** C1: the code at inputs where it departs from the claim.  When
    [os.remove] is refused, as it is where a file cannot be deleted while
    the descriptor that [mkstemp] returned, and that nothing closes, is
    still open on it, the call ends with the temporary file in place.
    When [driver.close()] raises, the call ends with the browser process
    still there. *)
Lemma temp_file_and_browser_can_survive :
  let denied :=
    run (remove_denied (PyStr png_uri)) bar_chart (Path "chart.png")
        None None w0 in
  let gone :=
    run (browser_gone (PyStr png_uri)) bar_chart (Path "chart.png")
        None None w0 in
  (ERemove tmp ∈ calls denied
   ∧ tmpfiles (world_after denied) !! tmp = Some html
   ∧ descriptors (world_after denied) = 1%nat
   ∧ exn_class <$> remove_tmp (remove_denied (PyStr png_uri))
     = Some "PermissionError"
   ∧ outcome denied = Raise (Exn "PermissionError"
       "The process cannot access the file because it is being used by another process"))
  ∧ (EClose ∈ calls gone
     ∧ browsers (world_after gone) = 1%nat
     ∧ outcome gone = Raise (Exn "WebDriverException" "chrome not reachable")).
Proof.
  repeat split; try reflexivity; vm_compute; is_call.
Qed.

Lemma save_spec_release_order_witness :
  filter (λ e, is_resource_event e = true)
         (calls (run embed_fails bar_chart (Path "chart.png") None None w0))
  = [EChrome true; EMkstemp ".html" (Some tmp); ERemove tmp; EClose].
Proof.
  apply (save_spec_release_order html utf8_encode b64_decode
           embed_fails bar_chart (Path "chart.png") None None w0 ".html" tmp);
    vm_compute; is_call.
Defined.

Lemma save_spec_raise_writes_nothing_witness :
  let r := run embed_fails bar_chart (Path "chart.png") None None w0 in
  filter (λ ev, is_write_event ev = true) (calls r) = []
  ∧ files (world_after r) = ∅
  ∧ sinks (world_after r) = ∅.
Proof.
  destruct (save_spec_raise_writes_nothing html utf8_encode b64_decode
              embed_fails bar_chart (Path "chart.png") None None w0
              (Exn "WebDriverException" "chrome not reachable") eq_refl)
    as [Hnone | [Hwrite _]].
  - exact Hnone.
  - discriminate Hwrite.
Defined.

Lemma save_spec_embed_options_witness :
  let opt : gmap string string :=
    <["mode" := "vega-lite"]> {["renderer" := "svg"]} in
  bar_chart = bar_chart
  ∧ (resolve_format (Path "chart.svg") None = Some "png"
     ∧ opt !! "renderer" = Some "canvas"
     ∨ resolve_format (Path "chart.svg") None = Some "svg"
       ∧ opt !! "renderer" = Some "svg")
  ∧ opt !! "mode" = Some "vega-lite"
  ∧ (is_Some (opt !! "mode") ↔ is_Some (Some "vega-lite"))
  ∧ ∀ k, is_Some (opt !! k) -> k = "renderer" ∨ k = "mode".
Proof.
  apply (save_spec_embed_options html utf8_encode b64_decode
           (all_good (PyStr "<svg></svg>")) bar_chart (Path "chart.svg")
           (Some "vega-lite") None w0).
  vm_compute. is_call.
Defined.

Lemma save_spec_writes_decoded_image_witness :
  let E := all_good (PyStr png_uri) in
  let r := run E bar_chart (Path "chart.png") None None w0 in
  ∃ s img,
    image_render_at E 0 = PyStr s
    ∧ last (calls r) = Some (EWriteFileOrFilename (Path "chart.png") img "wb")
    ∧ delivered (Path "chart.png") img w0 (world_after r)
    ∧ (resolve_format (Path "chart.png") None = Some "png"
       ∧ (∀ header payload,
            s = header +:+ String "," payload ->
            str_contains "," header = false ->
            str_contains "," payload = false ->
            ∃ b, utf8_encode payload = inr b ∧ b64_decode b = inr img)
       ∨ resolve_format (Path "chart.png") None = Some "svg"
         ∧ utf8_encode s = inr img).
Proof.
  apply (save_spec_writes_decoded_image html utf8_encode b64_decode
           (all_good (PyStr png_uri)) bar_chart (Path "chart.png")
           None None w0).
  reflexivity.
Defined.

Lemma save_spec_reads_image_render_once_witness :
  let r := run never_rendered bar_chart (Path "chart.png") None None w0 in
  (outcome r = Raise (AttributeError "split")
   ∨ outcome r = Raise (AttributeError "encode"))
  ∧ filter (λ ev, is_write_event ev = true) (calls r) = [].
Proof.
  destruct (save_spec_reads_image_render_once html utf8_encode b64_decode
              never_rendered bar_chart (Path "chart.png") None None w0)
    as [_ Hread].
  destruct Hread as [_ Hnone].
  - vm_compute. is_call.
  - apply Hnone; reflexivity.
Defined.

End Runs.

(** ** More runs: the failure paths and the protocol *)

Module MoreRuns.

Import Examples.

Lemma launch_failure_masks_exception_witness :
  let r := run chrome_missing bar_chart (Path "chart.png") None None w0 in
  outcome r = Raise (UnboundLocalError "driver")
  ∧ world_after r = w0
  ∧ (EClose ∉ calls r)
  ∧ (is_Some (options_new chrome_missing)
     ∨ is_Some (add_argument chrome_missing)
     ∨ is_Some (chrome_start chrome_missing)).
Proof.
  apply (launch_failure_masks_exception html utf8_encode b64_decode
           chrome_missing bar_chart (Path "chart.png") None None w0).
  - vm_compute. is_call.
  - intros H. vm_compute in H. in_calls H.
Defined.

Lemma mkstemp_failure_masks_exception_witness :
  let r := run no_tmpdir bar_chart (Path "chart.png") None None w0 in
  outcome r = Raise (UnboundLocalError "name")
  ∧ world_after r = w0
  ∧ EClose ∈ calls r
  ∧ (∀ n, ERemove n ∉ calls r).
Proof.
  destruct (mkstemp_failure_masks_exception html utf8_encode b64_decode
              no_tmpdir bar_chart (Path "chart.png") None None w0)
    as (Hout & Hworld & _ & Hclose & Hremove).
  - vm_compute. is_call.
  - intros sfx n H. vm_compute in H. in_calls H.
  - split; [exact Hout|]. split; [apply Hworld; reflexivity|].
    split; [exact Hclose|exact Hremove].
Defined.

Lemma session_failure_reaches_caller_witness :
  let r := run embed_fails bar_chart (Path "chart.png") None None w0 in
  outcome r = Raise (Exn "WebDriverException" "chrome not reachable")
  ∧ [ERemove tmp; EClose] `suffix_of` calls r
  ∧ filter (λ ev, is_write_event ev = true) (calls r) = [].
Proof.
  apply (session_failure_reaches_caller html utf8_encode b64_decode
           embed_fails bar_chart (Path "chart.png") None None w0 ".html").
  - vm_compute. is_call.
  - reflexivity.
Defined.

Lemma explicit_format_ignores_destination_witness :
  run (all_good (PyStr png_uri)) bar_chart (Path "chart.png") None
      (Some "jpg") w0
  = (Raise unsupported_format, w0, []).
Proof.
  apply (explicit_format_ignores_destination html utf8_encode b64_decode
           (all_good (PyStr png_uri)) bar_chart (Path "chart.png")
           (FileObj 1) None "jpg" w0).
  reflexivity.
Defined.

Lemma success_protocol_witness :
  let E := all_good (PyStr png_uri) in
  let r := run E bar_chart (Path "chart.png") None None w0 in
  ∃ name opt f img,
    mkstemp_pick E = inr name
    ∧ calls r
      = [ENewOptions; EAddArgument "--headless"; EChrome true;
         EMkstemp ".html" (Some name); EOpenWrite name html;
         EGet ("file://" +:+ name);
         EExecuteScript (EmbedCode bar_chart opt);
         EExecuteScript (ConvertCode f); EExecuteScript ExtractCode;
         ERemove name; EClose;
         EWriteFileOrFilename (Path "chart.png") img "wb"]
    ∧ session_failure E = None
    ∧ options_new E = None ∧ add_argument E = None ∧ chrome_start E = None
    ∧ write_dest E = None
    ∧ release_failure E = None.
Proof.
  apply (success_protocol html utf8_encode b64_decode
           (all_good (PyStr png_uri)) bar_chart (Path "chart.png")
           None None w0).
  reflexivity.
Defined.

Lemma browser_opens_only_the_temp_file_witness :
  let E := all_good (PyStr png_uri) in
  let r := run E bar_chart (Path "chart.png") None None w0 in
  ∃ name post,
    "file:///tmp/tmpa1b2c3.html" = "file://" +:+ name
    ∧ mkstemp_pick E = inr name
    ∧ tmpfiles w0 !! name = None
    ∧ calls r
      = [ENewOptions; EAddArgument "--headless"; EChrome true;
         EMkstemp ".html" (Some name); EOpenWrite name html;
         EGet "file:///tmp/tmpa1b2c3.html"] ++ post.
Proof.
  apply (browser_opens_only_the_temp_file html utf8_encode b64_decode
           (all_good (PyStr png_uri)) bar_chart (Path "chart.png")
           None None w0).
  vm_compute. is_call.
Defined.

Lemma chrome_is_started_headless_witness :
  let r := run chrome_missing bar_chart (Path "chart.png") None None w0 in
  ∃ post, calls r
          = [ENewOptions; EAddArgument "--headless"; EChrome false] ++ post.
Proof.
  apply (chrome_is_started_headless html utf8_encode b64_decode
           chrome_missing bar_chart (Path "chart.png") None None w0).
  vm_compute. is_call.
Defined.

Lemma conversion_script_of_format_witness :
  let r := run (all_good (PyStr "<svg></svg>")) bar_chart (Path "chart.svg")
               None None w0 in
  resolve_format (Path "chart.svg") None = Some "svg"
  ∧ is_Some (script_text (ConvertCode "svg"))
  ∧ ∃ pre post opt,
      calls r = pre ++ [EExecuteScript (EmbedCode bar_chart opt);
                        EExecuteScript (ConvertCode "svg")] ++ post.
Proof.
  apply (conversion_script_of_format html utf8_encode b64_decode
           (all_good (PyStr "<svg></svg>")) bar_chart (Path "chart.svg")
           None None w0).
  vm_compute. is_call.
Defined.

Lemma decode_error_reaches_caller_witness :
  let r := run (all_good (PyStr truncated_uri)) bar_chart (Path "chart.png")
               None None w0 in
  outcome r = Raise binascii_Error
  ∧ filter (λ ev, is_write_event ev = true) (calls r) = []
  ∧ EClose ∈ calls r.
Proof.
  apply (decode_error_reaches_caller html utf8_encode b64_decode
           (all_good (PyStr truncated_uri)) bar_chart (Path "chart.png")
           None None w0 "png" truncated_uri).
  - vm_compute. is_call.
  - reflexivity.
  - reflexivity.
  - reflexivity.
  - reflexivity.
Defined.

Lemma png_without_comma_is_index_error_witness :
  let r := run (all_good (PyStr "iVBORw0KGgo=")) bar_chart (Path "chart.png")
               None None w0 in
  outcome r = Raise IndexError
  ∧ filter (λ ev, is_write_event ev = true) (calls r) = [].
Proof.
  apply (png_without_comma_is_index_error html utf8_encode b64_decode
           (all_good (PyStr "iVBORw0KGgo=")) bar_chart (Path "chart.png")
           None None w0 "iVBORw0KGgo=").
  - vm_compute. is_call.
  - reflexivity.
  - reflexivity.
  - reflexivity.
  - reflexivity.
Defined.

Lemma png_payload_ends_at_second_comma_witness :
  let r := run (all_good (PyStr two_comma_uri)) bar_chart (Path "chart.png")
               None None w0 in
  ∃ b img, utf8_encode "iVBORw0KGgo=" = inr b
           ∧ b64_decode b = inr img
           ∧ last (calls r)
             = Some (EWriteFileOrFilename (Path "chart.png") img "wb").
Proof.
  apply (png_payload_ends_at_second_comma html utf8_encode b64_decode
           (all_good (PyStr two_comma_uri)) bar_chart (Path "chart.png")
           None None w0 "data:image/png;base64" "iVBORw0KGgo=" "trailing");
    reflexivity.
Defined.

Lemma mkstemp_descriptor_stays_open_witness :
  descriptors (world_after (run (all_good (PyStr png_uri)) bar_chart
                                (Path "chart.png") None None w0))
  = 1%nat.
Proof.
  destruct (mkstemp_descriptor_stays_open html utf8_encode b64_decode
              (all_good (PyStr png_uri)) bar_chart (Path "chart.png")
              None None w0) as [Hleak _].
  apply (Hleak ".html" tmp). vm_compute. is_call.
Defined.

Lemma at_most_one_write_to_fp_witness :
  let r := run (all_good (PyStr png_uri)) bar_chart (Path "chart.png")
               None None w0 in
  Path "chart.png" = Path "chart.png" ∧ "wb" = "wb"
  ∧ filter (λ ev, is_write_event ev = true) (calls r)
    = [EWriteFileOrFilename (Path "chart.png") png_magic "wb"]
  ∧ last (calls r)
    = Some (EWriteFileOrFilename (Path "chart.png") png_magic "wb").
Proof.
  apply (at_most_one_write_to_fp html utf8_encode b64_decode
           (all_good (PyStr png_uri)) bar_chart (Path "chart.png")
           None None w0).
  vm_compute. is_call.
Defined.

End MoreRuns.
